(** * EagerMOT augmentation: the plugin base class

    A shallow embedding of [augmentation/augmentation_base.py]: the abstract
    class [AugmentationMethod], its dummy subclass [DoNotAugment] and the
    factory function [create_child_class_object].

    Python objects are modelled by a small universe of values, console and
    file-system effects by an explicit world that every call threads, and
    exceptions by a result type.  What the module imports from files that
    are not part of this development (the mount path, the default settings,
    the visual-similarity constructor) and what the interpreter provides
    (parsing a float, opening a file) is gathered in the class
    [Environment]. *)

From Stdlib Require Import ZArith String Ascii List Lia.
From Stdlib Require Import Floats.SpecFloat.
From stdpp Require Import base strings gmap list.

Set Warnings "-register-all".


(** ** Python values *)

Definition loc := positive.

(** A dictionary is an object on the heap: a value holds a reference to it,
    so two names for one dictionary see the same entries. *)
Inductive pyvalue : Type :=
| PyNone
| PyBool (b : bool)
| PyInt (z : Z)
| PyFloat (f : spec_float)
| PyStr (s : string)
| PyList (items : list pyvalue)
| PyTuple (items : list pyvalue)
| PyDict (l : loc).

Inductive exception : Type :=
| EOFError
| KeyError (key : pyvalue)
| IndexError
| TypeError
| OSError (filename : string)
| UnboundLocalError (variable : string).

(** ** Characters that a string literal cannot hold *)

Definition nl : string := String "010"%char EmptyString.
Definition dq : string := String "034"%char EmptyString.
Definition backslash : string := String "092"%char EmptyString.

Fixpoint spaces (n : nat) : string :=
  match n with
  | O => EmptyString
  | S n => String " "%char (spaces n)
  end.

(** ** Floats

    A Python float is an IEEE 754 binary64 number: a [spec_float] that is
    valid for 53 bits of precision and a maximal exponent of 1024. *)

Definition prec : Z := 53.
Definition emax : Z := 1024.

Definition float_valid (f : spec_float) : Prop := valid_binary prec emax f = true.

Definition float_zero : spec_float := S754_zero false.
Definition float_one : spec_float := S754_finite false 4503599627370496 (-52).
Definition float_half : spec_float := S754_finite false 4503599627370496 (-53).
Definition float_two : spec_float := S754_finite false 4503599627370496 (-51).
Definition float_minus_one : spec_float := S754_finite true 4503599627370496 (-52).

(** The chained comparison [0 <= bias <= 1]; a comparison with NaN is
    false. *)
Definition in_unit_interval (bias : spec_float) : bool :=
  SFleb float_zero bias && SFleb bias float_one.

(** The number a float in the unit interval denotes: zero, or a positive
    [m * 2^e] that does not exceed one. *)
Definition denotes_unit_value (f : spec_float) : Prop :=
  match f with
  | S754_zero _ => True
  | S754_finite false m e => (e <= 0)%Z /\ (Z.pos m <= 2 ^ (- e))%Z
  | _ => False
  end.

(** ** The world: console, file system and heap *)

Inductive node : Type :=
| Dir
| File (content : string).

Record World : Type := mkWorld {
  stdin : list string;                 (* the lines [input()] has not read yet *)
  stdout : list string;                (* what was written, oldest first *)
  fs : gmap string node;               (* the paths that exist *)
  heap : gmap loc (gmap Z pyvalue)     (* the dictionaries, by reference *)
}.

Inductive result (A : Type) : Type :=
| Return (a : A)
| Raise (e : exception).
Arguments Return {A} a.
Arguments Raise {A} e.

(** A call takes the world and gives a result and the world it leaves; an
    exception keeps the effects that came before it. *)
Definition M (A : Type) : Type := World -> result A * World.

#[export] Instance M_ret : MRet M := fun A a w => (Return a, w).

#[export] Instance M_bind : MBind M := fun A B k m w =>
  match m w with
  | (Return a, w') => k a w'
  | (Raise e, w') => (Raise e, w')
  end.

Definition raise {A : Type} (e : exception) : M A := fun w => (Raise e, w).

Definition with_stdin (lines : list string) (w : World) : World :=
  {| stdin := lines; stdout := stdout w; fs := fs w; heap := heap w |}.

Definition write (text : string) (w : World) : World :=
  {| stdin := stdin w; stdout := stdout w ++ [text]; fs := fs w; heap := heap w |}.

(** [print(text)] writes the text and a line break. *)
Definition print (text : string) (w : World) : World := write (text +:+ nl) w.

(** [input()] and [input(prompt)]: the prompt is written, then one line is
    read; at the end of the input the call raises [EOFError]. *)
Definition input (prompt : option string) : M string := fun w =>
  let w := match prompt with Some p => write p w | None => w end in
  match stdin w with
  | [] => (Raise EOFError, w)
  | line :: rest => (Return line, with_stdin rest w)
  end.

Definition store_file (p : string) (text : string) (w : World) : World :=
  {| stdin := stdin w; stdout := stdout w; fs := <[p := File text]> (fs w); heap := heap w |}.

(** ** The object shared by all augmentation methods *)

Record instance : Type := mkInstance {
  name : string;
  map_ratio : pyvalue;
  folder : pyvalue;
  bias_ratio : pyvalue
}.

(** The methods a subclass supplies.  [setup_map_ratio] runs inside the
    constructor, when [self] has its name and nothing else; [get_name] has a
    body in the base class that a subclass may override. *)
Class AugmentationMethod : Type := {
  setup_map_ratio : string -> pyvalue -> M pyvalue;
  save_augmentation_parameters : instance -> string -> M pyvalue;
  get_features : instance -> pyvalue -> pyvalue -> M pyvalue;
  evaluate_score : instance -> pyvalue -> pyvalue -> M pyvalue;
  get_name : instance -> M pyvalue
}.

(** ** What the module takes from outside *)

Class Environment : Type := {
  (* configs.local_variables *)
  MOUNT_PATH : string;
  (* augmentation.augmentation_params *)
  default_settings : gmap string pyvalue;
  (* the builtin float() on a string; None stands for ValueError *)
  float_of_string : string -> option spec_float;
  (* whether open(p, 'w') succeeds on this file system *)
  open_for_writing : gmap string node -> string -> bool;
  (* augmentation.visual_similarity_2d.create_child_object *)
  visual_similarity_2d_create_child_object : string -> bool -> pyvalue -> M instance
}.

(** ** os.path *)

Module posixpath.

Definition startswith_sep (s : string) : bool :=
  match s with
  | String c _ => Ascii.eqb c "/"%char
  | EmptyString => false
  end.

Fixpoint endswith_sep (s : string) : bool :=
  match s with
  | EmptyString => false
  | String c EmptyString => Ascii.eqb c "/"%char
  | String _ rest => endswith_sep rest
  end.

Definition is_empty (s : string) : bool :=
  match s with
  | EmptyString => true
  | String _ _ => false
  end.

(** [join(a, b)]: an absolute [b] replaces [a]; otherwise [b] is appended,
    after a separator unless [a] is empty or already ends with one. *)
Definition join (a b : string) : string :=
  if startswith_sep b then b
  else if is_empty a || endswith_sep a then a +:+ b
  else a +:+ "/" +:+ b.

Definition path_exists (files : gmap string node) (p : string) : bool :=
  bool_decide (is_Some (files !! p)).

End posixpath.

(** ** json.dump with an indent

    The part of the encoder that dictionaries of strings, booleans and
    [None] need.  Text is ASCII here: a character outside the printable
    range is written as a [\u00XX] escape. *)

Module json.

Inductive value : Type :=
| Null
| Bool (b : bool)
| Str (s : string)
| Object (members : list (string * value)).

Definition hex_digit (n : N) : ascii :=
  match n with
  | 0%N => "0" | 1%N => "1" | 2%N => "2" | 3%N => "3" | 4%N => "4"
  | 5%N => "5" | 6%N => "6" | 7%N => "7" | 8%N => "8" | 9%N => "9"
  | 10%N => "a" | 11%N => "b" | 12%N => "c" | 13%N => "d" | 14%N => "e"
  | _ => "f"
  end%char.

Definition escape_char (c : ascii) : string :=
  let n := N_of_ascii c in
  if (n =? 34)%N then backslash +:+ dq
  else if (n =? 92)%N then backslash +:+ backslash
  else if (n =? 10)%N then backslash +:+ "n"
  else if (n =? 13)%N then backslash +:+ "r"
  else if (n =? 9)%N then backslash +:+ "t"
  else if (n =? 8)%N then backslash +:+ "b"
  else if (n =? 12)%N then backslash +:+ "f"
  else if ((32 <=? n) && (n <=? 126))%N then String c EmptyString
  else backslash +:+ "u00"
         +:+ String (hex_digit (n / 16)) (String (hex_digit (n mod 16)) EmptyString).

Fixpoint escape (s : string) : string :=
  match s with
  | EmptyString => EmptyString
  | String c rest => escape_char c +:+ escape rest
  end.

Definition quote (s : string) : string := dq +:+ escape s +:+ dq.

(** [level] counts the objects around the value that is written. *)
Fixpoint encode (indent level : nat) (v : value) : string :=
  match v with
  | Null => "null"
  | Bool true => "true"
  | Bool false => "false"
  | Str s => quote s
  | Object [] => "{}"
  | Object members =>
      let newline_indent := nl +:+ spaces (indent * S level) in
      let fix items (ms : list (string * value)) : list string :=
        match ms with
        | [] => []
        | (k, x) :: ms => (quote k +:+ ": " +:+ encode indent (S level) x) :: items ms
        end in
      "{" +:+ newline_indent
          +:+ String.concat ("," +:+ newline_indent) (items members)
          +:+ nl +:+ spaces (indent * level) +:+ "}"
  end.

Definition dumps (obj : value) (indent : nat) : string := encode indent 0 obj.

End json.

(** ** The program *)

Section Program.

Context `{env : Environment}.

(** [d[key]] on a module-level dictionary with string keys. *)
Definition settings_item (d : gmap string pyvalue) (key : string) : M pyvalue :=
  match d !! key with
  | Some v => mret v
  | None => raise (KeyError (PyStr key))
  end.

(** [seq[i]] on a list or tuple: a negative index counts from the end. *)
Definition sequence_item (items : list pyvalue) (i : Z) : M pyvalue :=
  let n := Z.of_nat (length items) in
  let j := if (i <? 0)%Z then (i + n)%Z else i in
  if ((0 <=? j) && (j <? n))%Z
  then match items !! Z.to_nat j with
       | Some v => mret v
       | None => raise IndexError
       end
  else raise IndexError.

(** [s[i]] on a string: the character at that place, as a string. *)
Definition string_item (s : string) (i : Z) : M pyvalue :=
  let n := Z.of_nat (String.length s) in
  let j := if (i <? 0)%Z then (i + n)%Z else i in
  if ((0 <=? j) && (j <? n))%Z
  then match String.get (Z.to_nat j) s with
       | Some c => mret (PyStr (String c EmptyString))
       | None => raise IndexError
       end
  else raise IndexError.

(** [container[key]] with an integer key. *)
Definition subscript (container : pyvalue) (key : Z) : M pyvalue :=
  match container with
  | PyDict l => fun w =>
      match default ∅ (heap w !! l) !! key with
      | Some v => (Return v, w)
      | None => (Raise (KeyError (PyInt key)), w)
      end
  | PyList items | PyTuple items => sequence_item items key
  | PyStr s => string_item s key
  | _ => raise TypeError
  end.

(** [with open(p, 'w') as f: dump(obj, f, indent=...)] *)
Definition dump_to_file (obj : json.value) (p : string) (indent : nat) : M unit :=
  fun w =>
    if open_for_writing (fs w) p
    then (Return tt, store_file p (json.dumps obj indent) w)
    else (Raise (OSError p), w).

(** *** class AugmentationMethod *)

Definition accept_default : list string :=
  ["y"; "Y"; "yes"; "YES"; "Yes"; "1"; "default"; "DEFAULT"; "Default"].

Definition default_path (self_name : string) : string :=
  MOUNT_PATH +:+ "/Embeddings/" +:+ self_name +:+ "/".

(** The [while True] loop of [get_source_folder_address]; [lines] is the
    input that is still unread when an iteration starts. *)
Fixpoint source_folder_loop (lines : list string) (w : World) : result string * World :=
  match lines with
  | [] => (Raise EOFError, write MOUNT_PATH w)
  | userpath :: rest =>
      let w := with_stdin rest (write MOUNT_PATH w) in
      let custom_folder_addr := MOUNT_PATH +:+ userpath in
      if negb (posixpath.path_exists (fs w) custom_folder_addr)
      then source_folder_loop rest (print "Error: folder does not exist. Input again" w)
      else (Return custom_folder_addr, w)
  end.

Definition get_source_folder_address (self_name : string) : M string :=
  fun w =>
    let w := print ("The default folder is " +:+ default_path self_name) w in
    let w := print "Are your results saved in the default folder? [y/n]" w in
    match input None w with
    | (Raise e, w) => (Raise e, w)
    | (Return savechoice, w) =>
        if negb (bool_decide (savechoice ∈ accept_default))
        then
          let w := print "Please write the path to your saved results." w in
          source_folder_loop (stdin w) w
        else (Return (default_path self_name), w)
    end.

Definition headerstring (self_name : string) : string :=
  " EagerMOT" +:+ spaces (25 - String.length self_name) +:+ self_name.

(** The [while True] loop of [get_bias_ratio_input]. *)
Fixpoint bias_ratio_loop (lines : list string) (w : World) : result spec_float * World :=
  match lines with
  | [] => (Raise EOFError, w)
  | line :: rest =>
      let w := with_stdin rest w in
      match float_of_string line with
      | None => bias_ratio_loop rest (print "Please print a number." w)
      | Some bias =>
          if in_unit_interval bias
          then (Return bias, w)
          else bias_ratio_loop rest (print "Bias ratio outside of permitted range" w)
      end
  end.

Definition get_bias_ratio_input (self_name : string) : M spec_float :=
  fun w =>
    let w := print ("Insert bias ratio in the range [0, 1]:" +:+ nl
                      +:+ headerstring self_name +:+ nl
                      +:+ " 1 ----------------------------- 0") w in
    bias_ratio_loop (stdin w) w.

(** [__init__] *)
Definition AugmentationMethod_init (cls : AugmentationMethod)
    (method_name : string) (automatic_init : bool) (eagermot_thresholds : pyvalue)
    : M instance :=
  ratio ← setup_map_ratio method_name eagermot_thresholds;
  if automatic_init
  then
    folder_v ← settings_item default_settings "folder";
    bias_v ← settings_item default_settings "bias ratio";
    mret {| name := method_name; map_ratio := ratio;
            folder := folder_v; bias_ratio := bias_v |}
  else
    folder_v ← get_source_folder_address method_name;
    bias_v ← get_bias_ratio_input method_name;
    mret {| name := method_name; map_ratio := ratio;
            folder := PyStr folder_v; bias_ratio := PyFloat bias_v |}.

Definition AugmentationMethod_get_name (self : instance) : M pyvalue :=
  mret (PyStr (name self)).

Definition get_folder (self : instance) : M pyvalue := mret (folder self).

Definition get_bias_ratio (self : instance) : M pyvalue := mret (bias_ratio self).

Definition get_map_ratio (self : instance) (class_target : Z) : M pyvalue :=
  subscript (map_ratio self) class_target.

(** *** class DoNotAugment *)

Definition DoNotAugment_setup_map_ratio (self_name : string)
    (eagermot_thresholds : pyvalue) : M pyvalue :=
  mret eagermot_thresholds.

Definition DoNotAugment_save_augmentation_parameters (self : instance)
    (save_path : string) : M pyvalue :=
  let params_to_write := json.Object [("None", json.Null)] in
  let params_file := posixpath.join save_path "No_augmentation_used.json" in
  dump_to_file params_to_write params_file 4;;
  mret PyNone.

Definition DoNotAugment_get_name (self : instance) : M pyvalue :=
  mret (PyBool false).

Definition DoNotAugment_get_features (self : instance)
    (detected_instances tracks : pyvalue) : M pyvalue :=
  mret PyNone.

Definition DoNotAugment_evaluate_score (self : instance)
    (element_0 element_1 : pyvalue) : M pyvalue :=
  mret PyNone.

#[local] Instance DoNotAugment : AugmentationMethod := {|
  setup_map_ratio := DoNotAugment_setup_map_ratio;
  save_augmentation_parameters := DoNotAugment_save_augmentation_parameters;
  get_features := DoNotAugment_get_features;
  evaluate_score := DoNotAugment_evaluate_score;
  get_name := DoNotAugment_get_name
|}.

Definition DoNotAugment_init (eagermot_thresholds : pyvalue) : M instance :=
  AugmentationMethod_init DoNotAugment "DoNotAugment" true eagermot_thresholds.

(** *** The factory

    The import statement binds the local name [create_child_object] only
    when the branch is taken; the call reads that local name. *)
Definition create_child_class_object (method_identifier : string) (name : string)
    (automatic_init : bool) (eagermot_thresholds : pyvalue) : M instance :=
  let create_child_object :=
    if String.eqb method_identifier "vis_sim_2d"
    then Some visual_similarity_2d_create_child_object
    else None in
  match create_child_object with
  | Some constructor => constructor name automatic_init eagermot_thresholds
  | None => raise (UnboundLocalError "create_child_object")
  end.

End Program.

(** ** A concrete environment, to run the program on *)

Module Sample.

(** A parser for the few spellings the examples type. *)
Definition parse (s : string) : option spec_float :=
  if String.eqb s "0" then Some float_zero
  else if String.eqb s "0.5" then Some float_half
  else if String.eqb s "1" then Some float_one
  else if String.eqb s "2" then Some float_two
  else if String.eqb s "-1" then Some float_minus_one
  else if String.eqb s "nan" then Some S754_nan
  else if String.eqb s "inf" then Some (S754_infinity false)
  else None.

Definition settings : gmap string pyvalue :=
  {[ "method" := PyStr "vis_sim_2d";
     "name" := PyStr "Visual similarity 2D";
     "folder" := PyStr "/data/Embeddings/vis/";
     "bias ratio" := PyFloat float_half ]}.

(** Settings whose bias ratio lies outside the unit interval. *)
Definition settings_out_of_range : gmap string pyvalue :=
  <["bias ratio" := PyFloat float_two]> settings.

(** A file can be created where the path names no directory. *)
Definition can_open (files : gmap string node) (p : string) : bool :=
  match files !! p with
  | Some Dir => false
  | _ => true
  end.

Definition vis_sim_object (name : string) (automatic_init : bool)
    (eagermot_thresholds : pyvalue) : M instance :=
  mret {| name := name; map_ratio := eagermot_thresholds;
          folder := PyStr "/data/Embeddings/vis/"; bias_ratio := PyFloat float_half |}.

Definition environment : Environment := {|
  MOUNT_PATH := "/data";
  default_settings := settings;
  float_of_string := parse;
  open_for_writing := can_open;
  visual_similarity_2d_create_child_object := vis_sim_object
|}.


(** A subclass that augments: it inherits [get_name] and scores every pair
    one half. *)
Definition scoring_method : AugmentationMethod := {|
  setup_map_ratio := fun _ eagermot_thresholds => mret eagermot_thresholds;
  save_augmentation_parameters := fun _ _ => mret PyNone;
  get_features := fun _ detected_instances tracks =>
    mret (PyTuple [detected_instances; tracks]);
  evaluate_score := fun _ _ _ => mret (PyFloat float_half);
  get_name := AugmentationMethod_get_name
|}.

Definition thresholds : gmap Z pyvalue :=
  {[ 1%Z := PyFloat float_half; 2%Z := PyFloat float_one ]}.

Definition world (lines : list string) : World := {|
  stdin := lines;
  stdout := [];
  fs := {[ "/data/results" := Dir; "/data/Embeddings/mine" := Dir ]};
  heap := {[ 7%positive := thresholds ]}
|}.

End Sample.

(** ** What the specification speaks of *)

Section Vocabulary.

Context `{env : Environment}.

(** A line the bias-ratio prompt does not accept. *)
Definition bias_rejected (line : string) : bool :=
  match float_of_string line with
  | None => true
  | Some bias => negb (in_unit_interval bias)
  end.

(** What the bias-ratio prompt answers to a line it does not accept. *)
Definition bias_retry (line : string) : string :=
  match float_of_string line with
  | None => "Please print a number." +:+ nl
  | Some _ => "Bias ratio outside of permitted range" +:+ nl
  end.

Definition bias_banner (self_name : string) : string :=
  ("Insert bias ratio in the range [0, 1]:" +:+ nl
     +:+ headerstring self_name +:+ nl
     +:+ " 1 ----------------------------- 0") +:+ nl.

(** What the folder prompt writes before it reads the choice. *)
Definition folder_banner (self_name : string) : list string :=
  [ "The default folder is " +:+ default_path self_name +:+ nl;
    "Are your results saved in the default folder? [y/n]" +:+ nl ].

(** One round of the folder prompt that ends in a retry. *)
Definition folder_retry (userpath : string) : list string :=
  [ MOUNT_PATH; "Error: folder does not exist. Input again" +:+ nl ].

Definition folder_missing (files : gmap string node) (userpath : string) : Prop :=
  posixpath.path_exists files (MOUNT_PATH +:+ userpath) = false.

End Vocabulary.

(** A value in [[0, 1]] or the skip mark [-1]. *)
Definition is_score (v : pyvalue) : bool :=
  match v with
  | PyFloat f => in_unit_interval f || SFeqb f float_minus_one
  | PyInt z => (z =? 0)%Z || (z =? 1)%Z || (z =? -1)%Z
  | _ => false
  end.

Definition sequence_length (v : pyvalue) : option nat :=
  match v with
  | PyList items | PyTuple items => Some (length items)
  | _ => None
  end.

(** Two sequences, as long as the detections and as the tracks. *)
Definition features_aligned (v detected_instances tracks : pyvalue) : bool :=
  match v with
  | PyTuple [for_detections; for_tracks] =>
      match sequence_length for_detections, sequence_length detected_instances,
            sequence_length for_tracks, sequence_length tracks with
      | Some n0, Some m0, Some n1, Some m1 => (n0 =? m0)%nat && (n1 =? m1)%nat
      | _, _, _, _ => false
      end
  | _ => false
  end.

(** The text [json.dump] writes for the dictionary that maps the string
    None to the value None, with an indent of four. *)
Definition none_json_text : string :=
  "{" +:+ nl +:+ "    " +:+ dq +:+ "None" +:+ dq +:+ ": null" +:+ nl +:+ "}".

(** ** The entry point

    [init_augment] takes two more things from outside: the table of the
    implemented methods and the menu that picks a row of it. *)

Class Registry : Type := {
  (* augmentation.augmentation_params *)
  augmentation_methods : pyvalue;
  (* augmentation.augmentation_base_utils; the result is the number of
     the chosen row *)
  choose_hyper_parameter : pyvalue -> M Z;
  (* augmentation.visual_similarity_2d.create_child_object, called with a
     name that is no string *)
  create_child_object_any : pyvalue -> bool -> pyvalue -> M instance
}.

Section EntryPoint.

Context `{env : Environment} `{reg : Registry}.

(** [container[key]] where the container may also be a string. *)
Definition getitem (container : pyvalue) (key : Z) : M pyvalue :=
  match container with
  | PyStr s =>
      let n := Z.of_nat (String.length s) in
      let j := if (key <? 0)%Z then (key + n)%Z else key in
      if ((0 <=? j) && (j <? n))%Z
      then match String.get (Z.to_nat j) s with
           | Some c => mret (PyStr (String c EmptyString))
           | None => raise IndexError
           end
      else raise IndexError
  | _ => subscript container key
  end.

(** The call of [create_child_class_object] from [init_augment], where no
    one has checked that the identifier and the name are strings: a value
    that is no string differs from every identifier. *)
Definition call_create_child_class_object (method_identifier name : pyvalue)
    (automatic_init : bool) (eagermot_thresholds : pyvalue) : M instance :=
  match method_identifier, name with
  | PyStr identifier, PyStr method_name =>
      create_child_class_object identifier method_name automatic_init eagermot_thresholds
  | PyStr identifier, _ =>
      if String.eqb identifier "vis_sim_2d"
      then create_child_object_any name automatic_init eagermot_thresholds
      else raise (UnboundLocalError "create_child_object")
  | _, _ => raise (UnboundLocalError "create_child_object")
  end.

Definition augment_yes : list string := ["y"; "Y"; "yes"; "YES"; "Yes"; "1"].

Definition augment_question : string :=
  "Would you like to augment EagerMOT by concatenating the EagerMOT "
    +:+ "affinity matrix with one based on data from another method? [y/n]".

Definition init_augment (automatic_init : bool) (eagermot_thresholds : pyvalue)
    : M instance :=
  if automatic_init
  then
    default_method_identifier ← settings_item default_settings "method";
    default_method_name ← settings_item default_settings "name";
    call_create_child_class_object default_method_identifier default_method_name
      automatic_init eagermot_thresholds
  else fun w =>
    let w := print augment_question w in
    match input None w with
    | (Raise e, w) => (Raise e, w)
    | (Return savechoice, w) =>
        if bool_decide (savechoice ∈ augment_yes)
        then
          (choice_num ← choose_hyper_parameter augmentation_methods;
           row ← getitem augmentation_methods choice_num;
           chosen_method_identifier ← getitem row 2;
           row ← getitem augmentation_methods choice_num;
           chosen_method_name ← getitem row 0;
           call_create_child_class_object chosen_method_identifier chosen_method_name
             automatic_init eagermot_thresholds) w
        else DoNotAugment_init eagermot_thresholds w
    end.

End EntryPoint.

(** A table with one row and a menu that always picks it. *)
Definition sample_registry : Registry := {|
  augmentation_methods :=
    PyList [PyTuple [PyStr "Visual similarity 2D"; PyStr "2D"; PyStr "vis_sim_2d"]];
  choose_hyper_parameter := fun _ => mret 0%Z;
  create_child_object_any := fun _ _ _ => raise TypeError
|}.

(** ** More vocabulary *)

(** A call that touched nothing but the console: files and heap are as
    before, what was written is still there, and the unread input is what
    is left of the input from before. *)
Definition console_only (w w' : World) : Prop :=
  fs w' = fs w
  /\ heap w' = heap w
  /\ (exists written, stdout w' = stdout w ++ written)
  /\ (exists consumed, stdin w = consumed ++ stdin w').

(** The scale that is printed below the header of the bias-ratio prompt. *)
Definition bias_scale : string := " 1 ----------------------------- 0".

(** ** Proofs *)

Ltac run :=
  unfold mbind, M_bind, mret, M_ret, raise in *; simpl in *.

Section FloatFacts.

Lemma digits2_pos_size (m : positive) : digits2_pos m = Pos.size m.
Proof. induction m as [m IH | m IH |]; simpl; congruence. Qed.

Lemma size_upper (m : positive) : (Z.pos m < 2 ^ Z.pos (Pos.size m))%Z.
Proof.
  pose proof (Pos.size_gt m) as H.
  rewrite <- Pos2Z.inj_pow. lia.
Qed.

Lemma size_lower (m : positive) : (2 ^ Z.pos (Pos.size m) <= 2 * Z.pos m)%Z.
Proof.
  pose proof (Pos.size_le m) as H.
  rewrite <- Pos2Z.inj_pow. lia.
Qed.

Lemma canonical_exponent (m : positive) (e : Z) :
  float_valid (S754_finite false m e) ->
  Z.max (Z.pos (Pos.size m) + e - 53) (-1074) = e.
Proof.
  unfold float_valid, valid_binary, bounded, canonical_mantissa, fexp, emin, prec, emax.
  rewrite digits2_pos_size. intros H.
  apply andb_prop in H as [H _]. apply Z.eqb_eq in H. lia.
Qed.

(** Among valid floats, the comparison picks those that denote a number
    between zero and one. *)
Lemma in_unit_interval_denotes (f : spec_float) :
  float_valid f -> in_unit_interval f = true <-> denotes_unit_value f.
Proof.
  intros Hv. destruct f as [s | s | | s m e]; simpl.
  - destruct s; unfold in_unit_interval; simpl; tauto.
  - destruct s; unfold in_unit_interval; simpl; split; (discriminate || tauto).
  - unfold in_unit_interval; simpl; split; (discriminate || tauto).
  - destruct s.
    + unfold in_unit_interval; simpl; split; (discriminate || tauto).
    + pose proof (canonical_exponent m e Hv) as Hc.
      pose proof (size_upper m) as Hup. pose proof (size_lower m) as Hlo.
      set (d := Z.pos (Pos.size m)) in *.
      assert (Hd : (0 < d)%Z) by (unfold d; lia).
      unfold in_unit_interval, SFleb, float_one, float_zero, SFcompare.
      cbn [andb].
      destruct (Z.compare_spec e (-52)) as [He | He | He].
      * subst e. rewrite Pos.compare_cont_spec. cbn [CompOpp].
        rewrite Pos2Z.inj_compare.
        replace (- -52)%Z with 52%Z by reflexivity.
        replace (2 ^ 52)%Z with 4503599627370496%Z by (vm_compute; reflexivity).
        destruct (Z.compare_spec (Z.pos m) (Z.pos 4503599627370496)) as [Hm | Hm | Hm];
          split; intros H; try reflexivity; try discriminate; lia.
      * split; [intros _ | reflexivity].
        split; [lia |].
        assert (Hd53 : (d <= 53)%Z) by lia.
        assert (H1 : (2 ^ d <= 2 ^ 53)%Z) by (apply Z.pow_le_mono_r; lia).
        assert (H2 : (2 ^ 53 <= 2 ^ (- e))%Z) by (apply Z.pow_le_mono_r; lia).
        lia.
      * split; [discriminate |]. intros [He0 Hm]. exfalso.
        assert (Hd53 : d = 53%Z) by lia.
        rewrite Hd53 in Hlo.
        assert (H2 : (2 ^ (- e) <= 2 ^ 51)%Z) by (apply Z.pow_le_mono_r; lia).
        replace (2 ^ 53)%Z with 9007199254740992%Z in Hlo by (vm_compute; reflexivity).
        replace (2 ^ 51)%Z with 2251799813685248%Z in H2 by (vm_compute; reflexivity).
        lia.
Qed.

End FloatFacts.

Section Prompts.

Context `{env : Environment}.

(** *** The bias-ratio prompt *)

Lemma bias_ratio_loop_retry (line : string) (rest out : list string)
    (files : gmap string node) (h : gmap loc (gmap Z pyvalue)) :
  bias_rejected line = true ->
  bias_ratio_loop (line :: rest) (mkWorld (line :: rest) out files h)
  = bias_ratio_loop rest (mkWorld rest (out ++ [bias_retry line]) files h).
Proof.
  unfold bias_rejected, bias_retry. cbn [bias_ratio_loop].
  destruct (float_of_string line) as [bias |]; [| reflexivity].
  intros H. apply negb_true_iff in H. rewrite H. reflexivity.
Qed.

Lemma bias_ratio_loop_retries (pre rest out : list string)
    (files : gmap string node) (h : gmap loc (gmap Z pyvalue)) :
  Forall (fun line => bias_rejected line = true) pre ->
  bias_ratio_loop (pre ++ rest) (mkWorld (pre ++ rest) out files h)
  = bias_ratio_loop rest (mkWorld rest (out ++ map bias_retry pre) files h).
Proof.
  intros Hpre. revert out.
  induction Hpre as [| line pre Hline _ IH]; intros out.
  - cbn [map app]. now rewrite app_nil_r.
  - cbn [map app].
    rewrite bias_ratio_loop_retry by exact Hline.
    rewrite IH. now rewrite <- app_assoc.
Qed.

Lemma bias_ratio_loop_accept (line : string) (bias : spec_float)
    (rest out : list string) (files : gmap string node)
    (h : gmap loc (gmap Z pyvalue)) :
  float_of_string line = Some bias ->
  in_unit_interval bias = true ->
  bias_ratio_loop (line :: rest) (mkWorld (line :: rest) out files h)
  = (Return bias, mkWorld rest out files h).
Proof.
  intros Hparse Hrange. cbn [bias_ratio_loop]. now rewrite Hparse, Hrange.
Qed.

Lemma bias_ratio_loop_returns (lines out : list string)
    (files : gmap string node) (h : gmap loc (gmap Z pyvalue))
    (bias : spec_float) (w' : World) :
  bias_ratio_loop lines (mkWorld lines out files h) = (Return bias, w') ->
  exists pre line rest,
    lines = pre ++ line :: rest
    /\ Forall (fun l => bias_rejected l = true) pre
    /\ float_of_string line = Some bias
    /\ in_unit_interval bias = true
    /\ w' = mkWorld rest (out ++ map bias_retry pre) files h.
Proof.
  revert out. induction lines as [| line lines IH]; intros out Hrun.
  - discriminate Hrun.
  - destruct (bias_rejected line) eqn:Hrej.
    + rewrite bias_ratio_loop_retry in Hrun by exact Hrej.
      destruct (IH _ Hrun) as (pre & l & rest & -> & Hpre & Hparse & Hrange & ->).
      exists (line :: pre), l, rest. repeat split; try assumption.
      * now constructor.
      * cbn [map]. now rewrite <- app_assoc.
    + unfold bias_rejected in Hrej. cbn [bias_ratio_loop] in Hrun.
      destruct (float_of_string line) as [b |] eqn:Hparse; [| discriminate].
      apply negb_false_iff in Hrej. rewrite Hrej in Hrun.
      injection Hrun as <- <-.
      exists [], line, lines. repeat split; try assumption.
      * constructor.
      * cbn [map]. now rewrite app_nil_r.
Qed.

Lemma bias_ratio_loop_exhausted (lines out : list string)
    (files : gmap string node) (h : gmap loc (gmap Z pyvalue)) :
  Forall (fun l => bias_rejected l = true) lines ->
  bias_ratio_loop lines (mkWorld lines out files h)
  = (Raise EOFError, mkWorld [] (out ++ map bias_retry lines) files h).
Proof.
  intros Hall.
  rewrite <- (app_nil_r lines) at 1 2.
  now rewrite bias_ratio_loop_retries.
Qed.

(** The part of [get_bias_ratio_input] before the loop. *)
Lemma get_bias_ratio_input_banner (self_name : string) (w : World) :
  get_bias_ratio_input self_name w
  = bias_ratio_loop (stdin w)
      (mkWorld (stdin w) (stdout w ++ [bias_banner self_name]) (fs w) (heap w)).
Proof. reflexivity. Qed.

Lemma get_bias_ratio_input_in_range (self_name : string) (w w' : World)
    (bias : spec_float) :
  get_bias_ratio_input self_name w = (Return bias, w') ->
  in_unit_interval bias = true.
Proof.
  rewrite get_bias_ratio_input_banner. intros Hrun.
  apply bias_ratio_loop_returns in Hrun as (_ & _ & _ & _ & _ & _ & Hrange & _).
  exact Hrange.
Qed.

(** C7. At the bias-ratio prompt a line that is no number and a number
    outside [0, 1] are each answered by a retry message and the next line
    is read; the call returns exactly when it reaches the first line that
    parses as a float within [0, 1], and it returns that float.  Input
    that ends before such a line ends the call with [EOFError]. *)
Theorem get_bias_ratio_input_retries (self_name : string) (w : World) :
  (forall line, float_of_string line = None ->
     bias_rejected line = true /\ bias_retry line = "Please print a number." +:+ nl)
  /\ (forall line bias, float_of_string line = Some bias ->
        in_unit_interval bias = false ->
        bias_rejected line = true
        /\ bias_retry line = "Bias ratio outside of permitted range" +:+ nl)
  /\ (forall bias w',
        get_bias_ratio_input self_name w = (Return bias, w') <->
        exists pre line rest,
          stdin w = pre ++ line :: rest
          /\ Forall (fun l => bias_rejected l = true) pre
          /\ float_of_string line = Some bias
          /\ in_unit_interval bias = true
          /\ w' = mkWorld rest
                    (stdout w ++ bias_banner self_name :: map bias_retry pre)
                    (fs w) (heap w))
  /\ (Forall (fun l => bias_rejected l = true) (stdin w) ->
        get_bias_ratio_input self_name w
        = (Raise EOFError,
           mkWorld [] (stdout w ++ bias_banner self_name :: map bias_retry (stdin w))
                   (fs w) (heap w))).
Proof.
  pose proof (get_bias_ratio_input_banner self_name w) as Hstart.
  split; [| split; [| split]].
  - intros line Hparse. unfold bias_rejected, bias_retry. now rewrite Hparse.
  - intros line bias Hparse Hrange. unfold bias_rejected, bias_retry.
    now rewrite Hparse, Hrange.
  - intros bias w'. rewrite Hstart. split.
    + intros Hrun. apply bias_ratio_loop_returns in Hrun
        as (pre & line & rest & Hin & Hpre & Hparse & Hrange & ->).
      exists pre, line, rest. repeat split; try assumption.
      now rewrite <- app_assoc.
    + intros (pre & line & rest & Hin & Hpre & Hparse & Hrange & ->).
      rewrite Hin, bias_ratio_loop_retries by exact Hpre.
      rewrite (bias_ratio_loop_accept line bias) by assumption.
      now rewrite <- app_assoc.
  - intros Hall. rewrite Hstart, bias_ratio_loop_exhausted by exact Hall.
    now rewrite <- app_assoc.
Qed.

(** *** The folder prompt *)

Lemma source_folder_loop_retry (userpath : string) (rest out : list string)
    (files : gmap string node) (h : gmap loc (gmap Z pyvalue)) :
  folder_missing files userpath ->
  source_folder_loop (userpath :: rest) (mkWorld (userpath :: rest) out files h)
  = source_folder_loop rest (mkWorld rest (out ++ folder_retry userpath) files h).
Proof.
  unfold folder_missing, folder_retry. intros Hmissing.
  cbn [source_folder_loop]. unfold print, write, with_stdin.
  cbn [stdin stdout fs heap].
  rewrite Hmissing. cbn [negb]. now rewrite <- app_assoc.
Qed.

Lemma source_folder_loop_retries (pre rest out : list string)
    (files : gmap string node) (h : gmap loc (gmap Z pyvalue)) :
  Forall (folder_missing files) pre ->
  source_folder_loop (pre ++ rest) (mkWorld (pre ++ rest) out files h)
  = source_folder_loop rest
      (mkWorld rest (out ++ concat (map folder_retry pre)) files h).
Proof.
  intros Hpre. revert out.
  induction Hpre as [| userpath pre Hpath _ IH]; intros out.
  - cbn [map concat app]. now rewrite app_nil_r.
  - cbn [map concat app].
    rewrite source_folder_loop_retry by exact Hpath.
    rewrite IH. now rewrite <- app_assoc.
Qed.

Lemma source_folder_loop_accept (userpath : string) (rest out : list string)
    (files : gmap string node) (h : gmap loc (gmap Z pyvalue)) :
  posixpath.path_exists files (MOUNT_PATH +:+ userpath) = true ->
  source_folder_loop (userpath :: rest) (mkWorld (userpath :: rest) out files h)
  = (Return (MOUNT_PATH +:+ userpath), mkWorld rest (out ++ [MOUNT_PATH]) files h).
Proof.
  intros Hexists.
  cbn [source_folder_loop]. unfold write, with_stdin.
  cbn [stdin stdout fs heap].
  now rewrite Hexists.
Qed.

Lemma source_folder_loop_returns (lines out : list string)
    (files : gmap string node) (h : gmap loc (gmap Z pyvalue))
    (p : string) (w' : World) :
  source_folder_loop lines (mkWorld lines out files h) = (Return p, w') ->
  exists pre userpath post,
    lines = pre ++ userpath :: post
    /\ Forall (folder_missing files) pre
    /\ posixpath.path_exists files (MOUNT_PATH +:+ userpath) = true
    /\ p = MOUNT_PATH +:+ userpath
    /\ w' = mkWorld post (out ++ concat (map folder_retry pre) ++ [MOUNT_PATH]) files h.
Proof.
  revert out. induction lines as [| userpath lines IH]; intros out Hrun.
  - discriminate Hrun.
  - destruct (posixpath.path_exists files (MOUNT_PATH +:+ userpath)) eqn:Hexists.
    + rewrite source_folder_loop_accept in Hrun by exact Hexists.
      injection Hrun as <- <-.
      exists [], userpath, lines. repeat split; try assumption. constructor.
    + rewrite source_folder_loop_retry in Hrun by exact Hexists.
      destruct (IH _ Hrun) as (pre & u & post & -> & Hpre & Hu & -> & ->).
      exists (userpath :: pre), u, post. repeat split; try assumption.
      * now constructor.
      * cbn [map concat]. now rewrite <- !app_assoc.
Qed.

(** The part of [get_source_folder_address] up to the choice. *)
Lemma get_source_folder_address_choice (self_name savechoice : string)
    (rest : list string) (w : World) :
  stdin w = savechoice :: rest ->
  get_source_folder_address self_name w
  = if bool_decide (savechoice ∈ accept_default)
    then (Return (default_path self_name),
          mkWorld rest (stdout w ++ folder_banner self_name) (fs w) (heap w))
    else source_folder_loop rest
           (mkWorld rest
              (stdout w ++ folder_banner self_name
                 ++ ["Please write the path to your saved results." +:+ nl])
              (fs w) (heap w)).
Proof.
  intros Hin. unfold get_source_folder_address, input, print, write, with_stdin.
  cbn [stdin stdout fs heap]. rewrite Hin.
  unfold folder_banner.
  destruct (bool_decide (savechoice ∈ accept_default)); cbn [negb stdin stdout fs heap].
  - now rewrite <- app_assoc.
  - now rewrite <- !app_assoc.
Qed.

(** C8. At the folder prompt, an accepted default is returned as it is,
    whether or not it exists.  When the user declines, every path typed
    that does not exist under the mount path is answered by the error
    message and a new prompt, and the call returns exactly when it reaches
    the first path that exists, which it returns below the mount path. *)
Theorem get_source_folder_address_retries (self_name savechoice : string)
    (rest : list string) (w : World) :
  stdin w = savechoice :: rest ->
  (savechoice ∈ accept_default ->
     get_source_folder_address self_name w
     = (Return (default_path self_name),
        mkWorld rest (stdout w ++ folder_banner self_name) (fs w) (heap w)))
  /\ (savechoice ∉ accept_default ->
      forall p w',
        get_source_folder_address self_name w = (Return p, w') <->
        exists pre userpath post,
          rest = pre ++ userpath :: post
          /\ Forall (folder_missing (fs w)) pre
          /\ posixpath.path_exists (fs w) (MOUNT_PATH +:+ userpath) = true
          /\ p = MOUNT_PATH +:+ userpath
          /\ w' = mkWorld post
                    (stdout w ++ folder_banner self_name
                       ++ ["Please write the path to your saved results." +:+ nl]
                       ++ concat (map folder_retry pre) ++ [MOUNT_PATH])
                    (fs w) (heap w)).
Proof.
  intros Hin. rewrite (get_source_folder_address_choice _ _ _ _ Hin). split.
  - intros Hyes. now rewrite bool_decide_eq_true_2.
  - intros Hno p w'. rewrite bool_decide_eq_false_2 by exact Hno. split.
    + intros Hrun. apply source_folder_loop_returns in Hrun
        as (pre & u & post & Hrest & Hpre & Hu & Hp & ->).
      exists pre, u, post. repeat split; try assumption.
      now rewrite <- !app_assoc.
    + intros (pre & u & post & -> & Hpre & Hu & -> & ->).
      rewrite source_folder_loop_retries by exact Hpre.
      rewrite source_folder_loop_accept by exact Hu.
      now rewrite <- !app_assoc.
Qed.

End Prompts.

Section Construction.

Context `{env : Environment}.

(** What a finished constructor leaves in the object. *)
Lemma AugmentationMethod_init_fields (cls : AugmentationMethod)
    (method_name : string) (automatic_init : bool) (eagermot_thresholds : pyvalue)
    (w w' : World) (self : instance) :
  AugmentationMethod_init cls method_name automatic_init eagermot_thresholds w
  = (Return self, w') ->
  name self = method_name
  /\ exists w1,
       setup_map_ratio method_name eagermot_thresholds w = (Return (map_ratio self), w1)
       /\ if automatic_init
          then default_settings !! "folder" = Some (folder self)
               /\ default_settings !! "bias ratio" = Some (bias_ratio self)
               /\ w' = w1
          else exists w2 p bias,
                 get_source_folder_address method_name w1 = (Return p, w2)
                 /\ get_bias_ratio_input method_name w2 = (Return bias, w')
                 /\ folder self = PyStr p
                 /\ bias_ratio self = PyFloat bias.
Proof.
  unfold AugmentationMethod_init, settings_item. run.
  destruct (setup_map_ratio method_name eagermot_thresholds w) as [[ratio | e] w1];
    [| discriminate].
  destruct automatic_init.
  - destruct (default_settings !! "folder") as [folder_v |]; run; [| discriminate].
    destruct (default_settings !! "bias ratio") as [bias_v |]; run; [| discriminate].
    intros [= <- <-]. cbn. split; [reflexivity |]. exists w1. auto.
  - destruct (get_source_folder_address method_name w1) as [[folder_v | e] w2] eqn:Hfolder;
      [| discriminate].
    destruct (get_bias_ratio_input method_name w2) as [[bias_v | e] w3] eqn:Hbias;
      [| discriminate].
    intros [= <- <-]. cbn. split; [reflexivity |].
    exists w1. split; [reflexivity |].
    exists w2, folder_v, bias_v. auto.
Qed.


(** Settings that keep the bias ratio in [0, 1] make every constructed
    object do so, with or without [automatic_init]. *)
Lemma bias_ratio_in_range_when_the_setting_is (cls : AugmentationMethod)
    (method_name : string) (automatic_init : bool) (eagermot_thresholds : pyvalue)
    (w w' : World) (self : instance) :
  (forall v, default_settings !! "bias ratio" = Some v ->
             exists bias, v = PyFloat bias /\ in_unit_interval bias = true) ->
  AugmentationMethod_init cls method_name automatic_init eagermot_thresholds w
  = (Return self, w') ->
  forall w2, exists bias,
    get_bias_ratio self w2 = (Return (PyFloat bias), w2)
    /\ in_unit_interval bias = true.
Proof.
  intros Hsettings Hinit w2.
  apply AugmentationMethod_init_fields in Hinit as (_ & w1 & _ & Hcase).
  unfold get_bias_ratio. run.
  destruct automatic_init.
  - destruct Hcase as (_ & Hbias & _).
    destruct (Hsettings _ Hbias) as (bias & Hv & Hrange).
    rewrite Hv. eauto.
  - destruct Hcase as (w3 & p & bias & _ & Hprompt & _ & Hv).
    rewrite Hv. exists bias. split; [reflexivity |].
    exact (get_bias_ratio_input_in_range _ _ _ _ Hprompt).
Qed.

(** With [automatic_init] the constructor checks nothing: whatever the
    settings hold becomes the bias ratio. *)
Lemma automatic_bias_ratio_is_the_setting (cls : AugmentationMethod)
    (method_name : string) (eagermot_thresholds : pyvalue)
    (w w' : World) (self : instance) :
  AugmentationMethod_init cls method_name true eagermot_thresholds w
  = (Return self, w') ->
  default_settings !! "bias ratio" = Some (bias_ratio self).
Proof.
  intros Hinit.
  apply AugmentationMethod_init_fields in Hinit as (_ & w1 & _ & _ & Hbias & _).
  exact Hbias.
Qed.

(** C9. [get_name] of the base class returns the method name the object
    was built with, as a string; on a [DoNotAugment] object, whose name
    attribute is the string DoNotAugment, [get_name] returns [False]. *)
Theorem get_name_of_method_and_of_dummy :
  (forall (cls : AugmentationMethod) method_name automatic_init eagermot_thresholds
          w w' self,
     AugmentationMethod_init cls method_name automatic_init eagermot_thresholds w
     = (Return self, w') ->
     forall w2, AugmentationMethod_get_name self w2 = (Return (PyStr method_name), w2))
  /\ (forall eagermot_thresholds w w' self,
        DoNotAugment_init eagermot_thresholds w = (Return self, w') ->
        name self = "DoNotAugment"
        /\ forall w2, @get_name DoNotAugment self w2 = (Return (PyBool false), w2)).
Proof.
  split.
  - intros cls method_name automatic_init th w w' self Hinit w2.
    apply AugmentationMethod_init_fields in Hinit as (<- & _).
    reflexivity.
  - intros th w w' self Hinit.
    apply AugmentationMethod_init_fields in Hinit as (Hname & _).
    split; [exact Hname | reflexivity].
Qed.

(** C10. A [DoNotAugment] object keeps the thresholds dictionary it was
    given as its map ratio, the very same object: for every class of the
    dictionary, [get_map_ratio] returns the threshold stored there. *)
Theorem DoNotAugment_map_ratio_is_thresholds (l : loc) (w w' : World)
    (self : instance) :
  DoNotAugment_init (PyDict l) w = (Return self, w') ->
  map_ratio self = PyDict l
  /\ heap w' = heap w
  /\ forall (w2 : World) (d : gmap Z pyvalue) (class_target : Z) (v : pyvalue),
       heap w2 !! l = Some d ->
       d !! class_target = Some v ->
       get_map_ratio self class_target w2 = (Return v, w2).
Proof.
  intros Hinit.
  assert (Hratio : map_ratio self = PyDict l /\ heap w' = heap w).
  { unfold DoNotAugment_init, AugmentationMethod_init, settings_item in Hinit. run.
    unfold DoNotAugment_setup_map_ratio in Hinit. run.
    destruct (default_settings !! "folder"); run; [| discriminate].
    destruct (default_settings !! "bias ratio"); run; [| discriminate].
    injection Hinit as <- <-. split; reflexivity. }
  destruct Hratio as [Hratio Hheap].
  repeat split; try assumption.
  intros w2 d class_target v Hd Hv.
  unfold get_map_ratio, subscript. rewrite Hratio, Hd. simpl.
  now rewrite Hv.
Qed.

End Construction.

Section Dummy.

Context `{env : Environment}.

(** C5. On a [DoNotAugment] object, [get_features] and [evaluate_score]
    return [None] for every input and leave the world as it was. *)
Theorem DoNotAugment_methods_do_nothing (self : instance)
    (detected_instances tracks element_0 element_1 : pyvalue) (w : World) :
  @get_features DoNotAugment self detected_instances tracks w = (Return PyNone, w)
  /\ @evaluate_score DoNotAugment self element_0 element_1 w = (Return PyNone, w).
Proof. split; reflexivity. Qed.

(** C3. [DoNotAugment.evaluate_score] returns [None], which is neither a
    number in [0, 1] nor [-1]: the score contract fails on the dummy
    class. *)
Theorem DoNotAugment_evaluate_score_is_no_score (self : instance)
    (element_0 element_1 : pyvalue) (w : World) :
  exists v,
    @evaluate_score DoNotAugment self element_0 element_1 w = (Return v, w)
    /\ is_score v = false.
Proof. exists PyNone. split; reflexivity. Qed.

(** C4. [DoNotAugment.get_features] returns [None] and not a pair of
    sequences as long as its inputs: the feature contract fails on the
    dummy class. *)
Theorem DoNotAugment_get_features_is_no_pair (self : instance)
    (detected_instances tracks : pyvalue) (w : World) :
  exists v,
    @get_features DoNotAugment self detected_instances tracks w = (Return v, w)
    /\ features_aligned v detected_instances tracks = false.
Proof. exists PyNone. split; reflexivity. Qed.

Lemma join_file_name (save_path : string) :
  posixpath.join save_path "No_augmentation_used.json"
  = if posixpath.is_empty save_path || posixpath.endswith_sep save_path
    then save_path +:+ "No_augmentation_used.json"
    else save_path +:+ "/" +:+ "No_augmentation_used.json".
Proof. reflexivity. Qed.

Lemma dump_none_text :
  json.dumps (json.Object [("None", json.Null)]) 4 = none_json_text.
Proof. reflexivity. Qed.

(** C6. Where the file can be opened for writing,
    [DoNotAugment.save_augmentation_parameters] returns after it has
    written one file, No_augmentation_used.json joined to the save path,
    whose text is the JSON object that maps the string None to null; no
    other path changes and nothing is printed or read. *)
Theorem DoNotAugment_saves_the_none_object (self : instance) (save_path : string)
    (w : World) :
  let params_file := posixpath.join save_path "No_augmentation_used.json" in
  open_for_writing (fs w) params_file = true ->
  exists w',
    @save_augmentation_parameters DoNotAugment self save_path w = (Return PyNone, w')
    /\ fs w' !! params_file = Some (File none_json_text)
    /\ (forall other, other <> params_file -> fs w' !! other = fs w !! other)
    /\ stdin w' = stdin w /\ stdout w' = stdout w /\ heap w' = heap w
    /\ (params_file = save_path +:+ "No_augmentation_used.json"
        \/ params_file = save_path +:+ "/" +:+ "No_augmentation_used.json").
Proof.
  intros params_file Hopen.
  exists (store_file params_file none_json_text w).
  split; [| split; [| split; [| repeat split]]].
  - cbn [save_augmentation_parameters DoNotAugment].
    unfold DoNotAugment_save_augmentation_parameters, dump_to_file. run.
    fold params_file. rewrite Hopen. reflexivity.
  - cbn [store_file fs]. apply lookup_insert_eq.
  - intros other Hother. cbn [store_file fs]. now apply lookup_insert_ne.
  - unfold params_file. rewrite join_file_name.
    destruct (posixpath.is_empty save_path || posixpath.endswith_sep save_path); auto.
Qed.

(** Where the file cannot be opened, the call raises and writes nothing. *)
Lemma DoNotAugment_save_refused (self : instance) (save_path : string) (w : World) :
  open_for_writing (fs w) (posixpath.join save_path "No_augmentation_used.json") = false ->
  DoNotAugment_save_augmentation_parameters self save_path w
  = (Raise (OSError (posixpath.join save_path "No_augmentation_used.json")), w).
Proof.
  intros Hopen. unfold DoNotAugment_save_augmentation_parameters, dump_to_file. run.
  now rewrite Hopen.
Qed.

End Dummy.

Section Factory.

Context `{env : Environment}.

Lemma create_child_class_object_registered (name : string) (automatic_init : bool)
    (eagermot_thresholds : pyvalue) :
  create_child_class_object "vis_sim_2d" name automatic_init eagermot_thresholds
  = visual_similarity_2d_create_child_object name automatic_init eagermot_thresholds.
Proof. reflexivity. Qed.

Lemma create_child_class_object_unregistered (method_identifier name : string)
    (automatic_init : bool) (eagermot_thresholds : pyvalue) (w : World) :
  method_identifier <> "vis_sim_2d" ->
  create_child_class_object method_identifier name automatic_init eagermot_thresholds w
  = (Raise (UnboundLocalError "create_child_object"), w).
Proof.
  intros Hother. unfold create_child_class_object.
  destruct (String.eqb_spec method_identifier "vis_sim_2d") as [Heq | _];
    [contradiction | reflexivity].
Qed.

(** C1. For the identifier visual_sim_3d, which is not registered, the
    factory raises no configuration error of its own: the call ends in
    [UnboundLocalError], for the local name that no import has bound. *)
Theorem create_child_class_object_unknown_identifier (name : string)
    (automatic_init : bool) (eagermot_thresholds : pyvalue) (w : World) :
  create_child_class_object "visual_sim_3d" name automatic_init eagermot_thresholds w
  = (Raise (UnboundLocalError "create_child_object"), w).
Proof. now apply create_child_class_object_unregistered. Qed.

End Factory.

(** ** Runs on the sample environment *)

(** The prompt turns down a word, a number that is too large and NaN, and
    takes the fourth line. *)
Example bias_prompt_run :
  exists w',
    @get_bias_ratio_input Sample.environment "vis" (Sample.world ["abc"; "2"; "nan"; "0.5"; "1"])
    = (Return float_half, w')
    /\ stdin w' = ["1"]
    /\ length (stdout w') = 4%nat.
Proof. eexists. split; [vm_compute; reflexivity | split; reflexivity]. Qed.

Example bias_prompt_end_of_input :
  fst (@get_bias_ratio_input Sample.environment "vis" (Sample.world ["abc"; "2"])) = Raise EOFError.
Proof. vm_compute. reflexivity. Qed.

Example automatic_init_takes_any_setting :
  let E2 := {| MOUNT_PATH := "/data";
               default_settings := Sample.settings_out_of_range;
               float_of_string := Sample.parse;
               open_for_writing := Sample.can_open;
               visual_similarity_2d_create_child_object := Sample.vis_sim_object |} in
  exists self w',
    @DoNotAugment_init E2 (PyDict 7%positive) (Sample.world []) = (Return self, w')
    /\ bias_ratio self = PyFloat float_two
    /\ in_unit_interval float_two = false.
Proof. eexists _, _. split; [vm_compute; reflexivity | split; reflexivity]. Qed.



Lemma get_source_folder_address_retries_witness :
  @get_source_folder_address Sample.environment "vis"
     (Sample.world ["n"; "/nowhere"; "/results"; "later"])
  = (Return "/data/results",
     mkWorld ["later"]
       (folder_banner (env := Sample.environment) "vis"
          ++ ["Please write the path to your saved results." +:+ nl]
          ++ ["/data"; "Error: folder does not exist. Input again" +:+ nl]
          ++ ["/data"])
       (fs (Sample.world [])) (heap (Sample.world []))).
Proof.
  pose proof (@get_source_folder_address_retries Sample.environment "vis" "n"
                ["/nowhere"; "/results"; "later"]
                (Sample.world ["n"; "/nowhere"; "/results"; "later"]) eq_refl)
    as [_ Hdecline].
  apply Hdecline.
  - apply (bool_decide_unpack _). vm_compute. exact I.
  - exists ["/nowhere"], "/results", ["later"].
    split; [reflexivity |].
    split; [repeat constructor |].
    split; [vm_compute; reflexivity |].
    split; reflexivity.
Defined.

Lemma DoNotAugment_map_ratio_is_thresholds_witness :
  exists self w',
    @DoNotAugment_init Sample.environment (PyDict 7%positive) (Sample.world []) = (Return self, w')
    /\ get_map_ratio self 2%Z (Sample.world []) = (Return (PyFloat float_one), Sample.world []).
Proof.
  eexists _, _. split; [vm_compute; reflexivity |].
  eapply (@DoNotAugment_map_ratio_is_thresholds Sample.environment 7%positive (Sample.world []) _ _).
  - vm_compute. reflexivity.
  - vm_compute. reflexivity.
  - vm_compute. reflexivity.
Defined.

Lemma DoNotAugment_saves_the_none_object_witness :
  open_for_writing (Environment := Sample.environment) (fs (Sample.world []))
    "/data/results/No_augmentation_used.json" = true
  /\ exists w',
       @DoNotAugment_save_augmentation_parameters Sample.environment
         (mkInstance "DoNotAugment" (PyDict 7%positive) PyNone PyNone) "/data/results" (Sample.world [])
       = (Return PyNone, w')
       /\ fs w' !! "/data/results/No_augmentation_used.json" = Some (File none_json_text).
Proof.
  split; [vm_compute; reflexivity |].
  destruct (@DoNotAugment_saves_the_none_object Sample.environment
              (mkInstance "DoNotAugment" (PyDict 7%positive) PyNone PyNone) "/data/results"
              (Sample.world []) eq_refl) as (w' & Hrun & Hfile & _).
  exists w'. split; [exact Hrun | exact Hfile].
Defined.

Example get_name_runs :
  exists self w',
    @AugmentationMethod_init Sample.environment Sample.scoring_method "vis" true (PyDict 7%positive) (Sample.world [])
    = (Return self, w')
    /\ @get_name Sample.scoring_method self w' = (Return (PyStr "vis"), w').
Proof. eexists _, _. split; [vm_compute; reflexivity | reflexivity]. Qed.

Example dummy_get_name_runs :
  exists self w',
    @DoNotAugment_init Sample.environment (PyDict 7%positive) (Sample.world []) = (Return self, w')
    /\ name self = "DoNotAugment"
    /\ @get_name (@DoNotAugment Sample.environment) self w' = (Return (PyBool false), w').
Proof. eexists _, _. split; [vm_compute; reflexivity | split; reflexivity]. Qed.

Example registered_identifier_runs :
  fst (@create_child_class_object Sample.environment "vis_sim_2d" "vis" true (PyDict 7%positive) (Sample.world []))
  = Return (mkInstance "vis" (PyDict 7%positive) (PyStr "/data/Embeddings/vis/") (PyFloat float_half)).
Proof. reflexivity. Qed.

(** ** Further properties of the prompts *)

Section ConsoleOnly.

Context `{env : Environment}.

Lemma console_only_refl (w : World) : console_only w w.
Proof.
  repeat split; try reflexivity.
  - exists []. now rewrite app_nil_r.
  - now exists [].
Qed.

Lemma console_only_trans (w1 w2 w3 : World) :
  console_only w1 w2 -> console_only w2 w3 -> console_only w1 w3.
Proof.
  intros (Hf1 & Hh1 & [o1 Ho1] & [i1 Hi1]) (Hf2 & Hh2 & [o2 Ho2] & [i2 Hi2]).
  repeat split.
  - congruence.
  - congruence.
  - exists (o1 ++ o2). now rewrite Ho2, Ho1, app_assoc.
  - exists (i1 ++ i2). now rewrite Hi1, Hi2, app_assoc.
Qed.

Lemma console_only_write (text : string) (w : World) : console_only w (write text w).
Proof.
  repeat split; try reflexivity.
  - now exists [text].
  - now exists [].
Qed.

Lemma console_only_print (text : string) (w : World) : console_only w (print text w).
Proof. apply console_only_write. Qed.

Lemma console_only_read (line : string) (rest : list string) (w : World) :
  stdin w = line :: rest -> console_only w (with_stdin rest w).
Proof.
  intros Hin. repeat split; try reflexivity.
  - exists []. now rewrite app_nil_r.
  - now exists [line].
Qed.

Lemma bias_ratio_loop_console_only (lines : list string) (w : World) :
  stdin w = lines -> console_only w (snd (bias_ratio_loop lines w)).
Proof.
  revert w. induction lines as [| line rest IH]; intros w Hin.
  - apply console_only_refl.
  - cbn [bias_ratio_loop].
    pose proof (console_only_read line rest w Hin) as Hread.
    destruct (float_of_string line) as [bias |].
    + destruct (in_unit_interval bias).
      * exact Hread.
      * eapply console_only_trans; [exact Hread |].
        eapply console_only_trans; [apply console_only_print |].
        now apply IH.
    + eapply console_only_trans; [exact Hread |].
      eapply console_only_trans; [apply console_only_print |].
      now apply IH.
Qed.

Lemma bias_prompt_console_only (self_name : string) (w : World) :
  console_only w (snd (get_bias_ratio_input self_name w)).
Proof.
  unfold get_bias_ratio_input.
  eapply console_only_trans; [apply console_only_print |].
  now apply bias_ratio_loop_console_only.
Qed.

Lemma source_folder_loop_console_only (lines : list string) (w : World) :
  stdin w = lines -> console_only w (snd (source_folder_loop lines w)).
Proof.
  revert w. induction lines as [| userpath rest IH]; intros w Hin.
  - apply console_only_write.
  - cbn [source_folder_loop].
    assert (Hread : console_only w (with_stdin rest (write MOUNT_PATH w))).
    { eapply console_only_trans; [apply console_only_write |].
      now apply (console_only_read userpath). }
    destruct (posixpath.path_exists (fs (with_stdin rest (write MOUNT_PATH w)))
                (MOUNT_PATH +:+ userpath)); cbn [negb].
    + exact Hread.
    + eapply console_only_trans; [exact Hread |].
      eapply console_only_trans; [apply console_only_print |].
      now apply IH.
Qed.

Lemma folder_prompt_console_only (self_name : string) (w : World) :
  console_only w (snd (get_source_folder_address self_name w)).
Proof.
  unfold get_source_folder_address.
  set (w1 := print _ (print _ w)).
  assert (H1 : console_only w w1).
  { eapply console_only_trans; apply console_only_print. }
  unfold input. destruct (stdin w1) as [| savechoice rest] eqn:Hin.
  - exact H1.
  - pose proof (console_only_read savechoice rest w1 Hin) as Hread.
    destruct (bool_decide (savechoice ∈ accept_default)); cbn [negb].
    + now apply (console_only_trans _ w1).
    + eapply console_only_trans; [exact H1 |].
      eapply console_only_trans; [exact Hread |].
      eapply console_only_trans; [apply console_only_print |].
      now apply source_folder_loop_console_only.
Qed.

(** X5. The folder prompt and the bias-ratio prompt, however they end, have
    changed no file and no dictionary; they have only added to the output
    and read from the front of the input. *)
Theorem prompts_touch_only_the_console (self_name : string) (w : World) :
  console_only w (snd (get_source_folder_address self_name w))
  /\ console_only w (snd (get_bias_ratio_input self_name w)).
Proof.
  split; [apply folder_prompt_console_only | apply bias_prompt_console_only].
Qed.

End ConsoleOnly.

Section PromptEdges.

Context `{env : Environment}.

Lemma source_folder_loop_exhausted (lines out : list string)
    (files : gmap string node) (h : gmap loc (gmap Z pyvalue)) :
  Forall (folder_missing files) lines ->
  source_folder_loop lines (mkWorld lines out files h)
  = (Raise EOFError,
     mkWorld [] (out ++ concat (map folder_retry lines) ++ [MOUNT_PATH]) files h).
Proof.
  intros Hall.
  rewrite <- (app_nil_r lines) at 1 2.
  rewrite source_folder_loop_retries by exact Hall.
  cbn [source_folder_loop]. unfold write. cbn [stdin stdout fs heap].
  now rewrite <- app_assoc.
Qed.

Lemma source_folder_loop_raises (lines out : list string)
    (files : gmap string node) (h : gmap loc (gmap Z pyvalue))
    (e : exception) (w' : World) :
  source_folder_loop lines (mkWorld lines out files h) = (Raise e, w') ->
  e = EOFError /\ Forall (folder_missing files) lines.
Proof.
  revert out. induction lines as [| userpath lines IH]; intros out Hrun.
  - cbn in Hrun. injection Hrun as <- _. split; [reflexivity | constructor].
  - destruct (posixpath.path_exists files (MOUNT_PATH +:+ userpath)) eqn:Hexists.
    + rewrite source_folder_loop_accept in Hrun by exact Hexists. discriminate.
    + rewrite source_folder_loop_retry in Hrun by exact Hexists.
      destruct (IH _ Hrun) as [-> Hall]. split; [reflexivity |].
      now constructor.
Qed.

(** X6. The folder prompt raises nothing but [EOFError], and it raises exactly
    when the input has no line for the choice, or when the user declines
    the default and every path typed afterwards is missing. *)
Theorem get_source_folder_address_end_of_input (self_name : string) (w : World)
    (e : exception) (w' : World) :
  get_source_folder_address self_name w = (Raise e, w') <->
  e = EOFError
  /\ ((stdin w = []
       /\ w' = mkWorld [] (stdout w ++ folder_banner self_name) (fs w) (heap w))
      \/ exists savechoice rest,
           stdin w = savechoice :: rest
           /\ (savechoice ∉ accept_default)
           /\ Forall (folder_missing (fs w)) rest
           /\ w' = mkWorld []
                     (stdout w ++ folder_banner self_name
                        ++ ["Please write the path to your saved results." +:+ nl]
                        ++ concat (map folder_retry rest) ++ [MOUNT_PATH])
                     (fs w) (heap w)).
Proof.
  destruct (stdin w) as [| savechoice rest] eqn:Hin.
  - assert (Hrun : get_source_folder_address self_name w
                   = (Raise EOFError,
                      mkWorld [] (stdout w ++ folder_banner self_name) (fs w) (heap w))).
    { unfold get_source_folder_address, input, print, write, folder_banner.
      cbn [stdin stdout fs heap]. rewrite Hin. now rewrite <- app_assoc. }
    rewrite Hrun. split.
    + intros [= <- <-]. split; [reflexivity |]. left. now split.
    + intros (-> & [[_ ->] | (c & r & Hc & _)]); [reflexivity | discriminate].
  - rewrite (get_source_folder_address_choice _ _ _ _ Hin).
    destruct (bool_decide (savechoice ∈ accept_default)) eqn:Hchoice.
    + split; [discriminate |].
      intros (_ & [[Hnil _] | (c & r & [= <- <-] & Hno & _)]); [discriminate |].
      apply bool_decide_eq_true_1 in Hchoice. contradiction.
    + apply bool_decide_eq_false_1 in Hchoice. split.
      * intros Hrun. pose proof Hrun as Hraise.
        apply source_folder_loop_raises in Hraise as [-> Hall].
        rewrite source_folder_loop_exhausted in Hrun by exact Hall.
        injection Hrun as <-. split; [reflexivity |]. right.
        exists savechoice, rest. repeat split; try assumption.
        now rewrite <- !app_assoc.
      * intros (-> & [[Hnil _] | (c & r & [= <- <-] & _ & Hall & ->)]);
          [discriminate |].
        rewrite source_folder_loop_exhausted by exact Hall.
        now rewrite <- !app_assoc.
Qed.

(** What the folder prompt can return. *)
Lemma get_source_folder_address_returns (self_name : string) (w w' : World)
    (p : string) :
  get_source_folder_address self_name w = (Return p, w') ->
  p = default_path self_name
  \/ exists userpath,
       p = MOUNT_PATH +:+ userpath /\ posixpath.path_exists (fs w) p = true.
Proof.
  destruct (stdin w) as [| savechoice rest] eqn:Hin.
  - unfold get_source_folder_address, input, print, write.
    cbn [stdin stdout fs heap]. rewrite Hin. discriminate.
  - rewrite (get_source_folder_address_choice _ _ _ _ Hin).
    destruct (bool_decide (savechoice ∈ accept_default)).
    + intros [= <- _]. now left.
    + intros Hrun. apply source_folder_loop_returns in Hrun
        as (pre & u & post & _ & _ & Hu & -> & _).
      right. now exists u.
Qed.

(** X7. The bias-ratio prompt never returns NaN, an infinity or a negative
    number, although [float()] reads all of them; the valid float it
    returns denotes a number from zero to one. *)
Theorem get_bias_ratio_input_returns_a_ratio (self_name : string) (w w' : World)
    (bias : spec_float) :
  get_bias_ratio_input self_name w = (Return bias, w') ->
  bias <> S754_nan
  /\ (forall s, bias <> S754_infinity s)
  /\ (forall m e, bias <> S754_finite true m e)
  /\ (float_valid bias -> denotes_unit_value bias).
Proof.
  intros Hrun. apply get_bias_ratio_input_in_range in Hrun.
  repeat split.
  - intros ->. discriminate Hrun.
  - intros s ->. destruct s; discriminate Hrun.
  - intros m e ->. discriminate Hrun.
  - intros Hvalid. now apply in_unit_interval_denotes.
Qed.

Lemma length_append (s t : string) :
  String.length (s +:+ t) = (String.length s + String.length t)%nat.
Proof. induction s as [| c s IH]; simpl; [reflexivity | now f_equal]. Qed.

Lemma length_spaces (n : nat) : String.length (spaces n) = n.
Proof. induction n as [| n IH]; simpl; [reflexivity | now f_equal]. Qed.

(** X8. The header of the bias-ratio prompt pads a name of up to 25 characters
    so that it ends below the right end of the scale; a longer name is
    written in full and makes the header longer than the scale. *)
Theorem headerstring_width (self_name : string) :
  String.length (headerstring self_name)
  = (9 + Nat.max 25 (String.length self_name))%nat
  /\ ((String.length self_name <= 25)%nat ->
      String.length (headerstring self_name) = String.length bias_scale).
Proof.
  assert (Hlen : String.length (headerstring self_name)
                 = (9 + Nat.max 25 (String.length self_name))%nat).
  { unfold headerstring. rewrite !length_append, length_spaces.
    change (String.length " EagerMOT") with 9%nat. lia. }
  split; [exact Hlen |].
  intros Hshort. rewrite Hlen.
  change (String.length bias_scale) with 34%nat. lia.
Qed.

End PromptEdges.

(** ** Further properties of the classes *)

Section ConstructionEdges.

Context `{env : Environment}.

Lemma DoNotAugment_init_with_settings (eagermot_thresholds folder_v bias_v : pyvalue)
    (w : World) :
  default_settings !! "folder" = Some folder_v ->
  default_settings !! "bias ratio" = Some bias_v ->
  DoNotAugment_init eagermot_thresholds w
  = (Return (mkInstance "DoNotAugment" eagermot_thresholds folder_v bias_v), w).
Proof.
  intros Hfolder Hbias.
  unfold DoNotAugment_init, AugmentationMethod_init, settings_item. run.
  unfold DoNotAugment_setup_map_ratio. run.
  rewrite Hfolder. run. rewrite Hbias. reflexivity.
Qed.

(** X1. Building a [DoNotAugment] object never touches the world.  It succeeds
    exactly when the default settings have a folder and a bias ratio, and
    then holds them with the thresholds; a missing entry raises [KeyError],
    for the folder first. *)
Theorem DoNotAugment_init_outcome (eagermot_thresholds : pyvalue) (w : World) :
  snd (DoNotAugment_init eagermot_thresholds w) = w
  /\ fst (DoNotAugment_init eagermot_thresholds w)
     = match default_settings !! "folder", default_settings !! "bias ratio" with
       | Some folder_v, Some bias_v =>
           Return (mkInstance "DoNotAugment" eagermot_thresholds folder_v bias_v)
       | None, _ => Raise (KeyError (PyStr "folder"))
       | Some _, None => Raise (KeyError (PyStr "bias ratio"))
       end.
Proof.
  unfold DoNotAugment_init, AugmentationMethod_init, settings_item. run.
  unfold DoNotAugment_setup_map_ratio. run.
  destruct (default_settings !! "folder"); run; [| split; reflexivity].
  destruct (default_settings !! "bias ratio"); run; split; reflexivity.
Qed.

(** X2. The constructor without [automatic_init] asks for the folder first and
    for the bias ratio second: when the user takes the default folder and
    then types a ratio that is accepted, after lines that are not, the
    object holds the default path and that ratio, and the lines after it
    are left unread. *)
Theorem AugmentationMethod_init_interactive (cls : AugmentationMethod)
    (method_name : string) (eagermot_thresholds ratio : pyvalue) (w w1 : World)
    (savechoice line : string) (pre rest : list string) (bias : spec_float) :
  setup_map_ratio method_name eagermot_thresholds w = (Return ratio, w1) ->
  stdin w1 = savechoice :: pre ++ line :: rest ->
  savechoice ∈ accept_default ->
  Forall (fun l => bias_rejected l = true) pre ->
  float_of_string line = Some bias ->
  in_unit_interval bias = true ->
  AugmentationMethod_init cls method_name false eagermot_thresholds w
  = (Return (mkInstance method_name ratio
               (PyStr (default_path method_name)) (PyFloat bias)),
     mkWorld rest
       (stdout w1 ++ folder_banner method_name
          ++ bias_banner method_name :: map bias_retry pre)
       (fs w1) (heap w1)).
Proof.
  intros Hsetup Hin Hyes Hpre Hparse Hrange.
  unfold AugmentationMethod_init. run. rewrite Hsetup.
  rewrite (get_source_folder_address_choice _ _ _ _ Hin).
  rewrite bool_decide_eq_true_2 by exact Hyes.
  rewrite get_bias_ratio_input_banner. cbn [stdin stdout fs heap].
  rewrite bias_ratio_loop_retries by exact Hpre.
  rewrite (bias_ratio_loop_accept line bias) by assumption.
  now rewrite <- !app_assoc.
Qed.

(** X3. After the constructor without [automatic_init], the folder is a string
    below the mount path: the default path, which nothing has tested, or a
    path that exists in the file system the constructor leaves. *)
Theorem AugmentationMethod_init_interactive_folder (cls : AugmentationMethod)
    (method_name : string) (eagermot_thresholds : pyvalue) (w w' : World)
    (self : instance) :
  AugmentationMethod_init cls method_name false eagermot_thresholds w
  = (Return self, w') ->
  exists below,
    (forall w2, get_folder self w2 = (Return (PyStr (MOUNT_PATH +:+ below)), w2))
    /\ (MOUNT_PATH +:+ below = default_path method_name
        \/ posixpath.path_exists (fs w') (MOUNT_PATH +:+ below) = true).
Proof.
  intros Hinit.
  apply AugmentationMethod_init_fields in Hinit
    as (_ & w1 & _ & w2 & p & bias & Hfolder & Hbias & Hp & _).
  assert (Hfs : fs w' = fs w1).
  { pose proof (folder_prompt_console_only method_name w1) as (H1 & _).
    pose proof (bias_prompt_console_only method_name w2) as (H2 & _).
    rewrite Hfolder in H1. rewrite Hbias in H2. cbn [snd] in H1, H2. congruence. }
  apply get_source_folder_address_returns in Hfolder as [-> | (u & -> & Hexists)].
  - exists ("/Embeddings/" +:+ method_name +:+ "/"). split.
    + intros w3. unfold get_folder. run. now rewrite Hp.
    + now left.
  - exists u. split.
    + intros w3. unfold get_folder. run. now rewrite Hp.
    + right. now rewrite Hfs.
Qed.

Lemma bias_ratio_loop_raises (lines : list string) (w w' : World) (e : exception) :
  bias_ratio_loop lines w = (Raise e, w') -> e = EOFError.
Proof.
  revert w. induction lines as [| line rest IH]; intros w; cbn [bias_ratio_loop].
  - now intros [= <- _].
  - destruct (float_of_string line) as [bias |]; [| apply IH].
    destruct (in_unit_interval bias); [discriminate | apply IH].
Qed.

Lemma get_source_folder_address_raises (self_name : string) (w w' : World)
    (e : exception) :
  get_source_folder_address self_name w = (Raise e, w') -> e = EOFError.
Proof.
  destruct (stdin w) as [| savechoice rest] eqn:Hin.
  - unfold get_source_folder_address, input, print, write.
    cbn [stdin stdout fs heap]. rewrite Hin. now intros [= <- _].
  - rewrite (get_source_folder_address_choice _ _ _ _ Hin).
    destruct (bool_decide (savechoice ∈ accept_default)); [discriminate |].
    intros Hrun. now apply source_folder_loop_raises in Hrun.
Qed.

(** X4. The constructor adds few exceptions of its own to those of
    [setup_map_ratio], which it lets through with the world they left: with
    [automatic_init] a [KeyError] for a setting that is missing, without it
    [EOFError] from a prompt. *)
Theorem AugmentationMethod_init_raises (cls : AugmentationMethod)
    (method_name : string) (automatic_init : bool) (eagermot_thresholds : pyvalue)
    (w w' : World) (e : exception) :
  AugmentationMethod_init cls method_name automatic_init eagermot_thresholds w
  = (Raise e, w') ->
  setup_map_ratio method_name eagermot_thresholds w = (Raise e, w')
  \/ (exists ratio w1,
        setup_map_ratio method_name eagermot_thresholds w = (Return ratio, w1)
        /\ if automatic_init
           then w' = w1
                /\ (e = KeyError (PyStr "folder") \/ e = KeyError (PyStr "bias ratio"))
           else e = EOFError).
Proof.
  unfold AugmentationMethod_init, settings_item. run.
  destruct (setup_map_ratio method_name eagermot_thresholds w) as [[ratio | e1] w1].
  - intros Hrun. right. exists ratio, w1. split; [reflexivity |].
    destruct automatic_init.
    + destruct (default_settings !! "folder"); run.
      * destruct (default_settings !! "bias ratio"); run; [discriminate |].
        injection Hrun as <- <-. auto.
      * injection Hrun as <- <-. auto.
    + destruct (get_source_folder_address method_name w1) as [[p | e2] w2] eqn:Hfolder.
      * destruct (get_bias_ratio_input method_name w2) as [[b | e3] w3] eqn:Hbias;
          [discriminate |].
        injection Hrun as <- _.
        rewrite get_bias_ratio_input_banner in Hbias.
        now apply bias_ratio_loop_raises in Hbias.
      * injection Hrun as <- _.
        now apply get_source_folder_address_raises in Hfolder.
  - intros [= <- <-]. now left.
Qed.

(** X9. On a [DoNotAugment] object, a class that the thresholds dictionary
    does not hold makes [get_map_ratio] raise [KeyError] for that class,
    and thresholds that are [None] make it raise [TypeError]: the
    constructor has tested neither. *)
Theorem DoNotAugment_get_map_ratio_errors (eagermot_thresholds : pyvalue)
    (w w' : World) (self : instance) :
  DoNotAugment_init eagermot_thresholds w = (Return self, w') ->
  (forall l w2 class_target,
     eagermot_thresholds = PyDict l ->
     default ∅ (heap w2 !! l) !! class_target = None ->
     get_map_ratio self class_target w2 = (Raise (KeyError (PyInt class_target)), w2))
  /\ (forall w2 class_target,
        eagermot_thresholds = PyNone ->
        get_map_ratio self class_target w2 = (Raise TypeError, w2)).
Proof.
  intros Hinit.
  assert (Hratio : map_ratio self = eagermot_thresholds).
  { apply AugmentationMethod_init_fields in Hinit as (_ & w1 & Hsetup & _).
    cbn in Hsetup. now injection Hsetup as <- _. }
  split.
  - intros l w2 c -> Hmissing. unfold get_map_ratio, subscript.
    rewrite Hratio. now rewrite Hmissing.
  - intros w2 c ->. unfold get_map_ratio. now rewrite Hratio.
Qed.

(** X10. Saving the parameters of a [DoNotAugment] object a second time changes
    nothing: the second call returns and leaves the world of the first. *)
Theorem DoNotAugment_save_twice (self : instance) (save_path : string) (w : World) :
  let params_file := posixpath.join save_path "No_augmentation_used.json" in
  open_for_writing (fs w) params_file = true ->
  open_for_writing (<[params_file := File none_json_text]> (fs w)) params_file = true ->
  exists w1,
    DoNotAugment_save_augmentation_parameters self save_path w = (Return PyNone, w1)
    /\ DoNotAugment_save_augmentation_parameters self save_path w1 = (Return PyNone, w1).
Proof.
  intros params_file Hopen Hagain.
  exists (store_file params_file none_json_text w).
  unfold DoNotAugment_save_augmentation_parameters, dump_to_file. run.
  fold params_file. rewrite Hopen, Hagain. split; [reflexivity |].
  unfold store_file. cbn [stdin stdout fs heap].
  now rewrite insert_insert_eq.
Qed.

(** X11. The factory returns an object for no identifier but vis_sim_2d, and
    then it is the object that the visual-similarity constructor builds
    from the same name, flag and thresholds. *)
Theorem create_child_class_object_returns (method_identifier name : string)
    (automatic_init : bool) (eagermot_thresholds : pyvalue) (w w' : World)
    (self : instance) :
  create_child_class_object method_identifier name automatic_init eagermot_thresholds w
  = (Return self, w') ->
  method_identifier = "vis_sim_2d"
  /\ visual_similarity_2d_create_child_object name automatic_init eagermot_thresholds w
     = (Return self, w').
Proof.
  unfold create_child_class_object.
  destruct (String.eqb_spec method_identifier "vis_sim_2d") as [-> | _].
  - intros Hrun. now split.
  - discriminate.
Qed.

End ConstructionEdges.

Section EntryPointFacts.

Context `{env : Environment} `{reg : Registry}.

(** X12. With [automatic_init], [init_augment] returns an object only when the
    default method is vis_sim_2d, and then it is what the visual-similarity
    constructor builds from the default name; it asks nothing and never
    falls back to [DoNotAugment]. *)
Theorem init_augment_automatic_returns (eagermot_thresholds : pyvalue)
    (w w' : World) (self : instance) :
  init_augment true eagermot_thresholds w = (Return self, w') ->
  default_settings !! "method" = Some (PyStr "vis_sim_2d")
  /\ exists default_name,
       default_settings !! "name" = Some default_name
       /\ match default_name with
          | PyStr method_name =>
              visual_similarity_2d_create_child_object method_name true
                eagermot_thresholds w
          | _ => create_child_object_any default_name true eagermot_thresholds w
          end = (Return self, w').
Proof.
  unfold init_augment, settings_item. run.
  destruct (default_settings !! "method") as [method_v |]; run; [| discriminate].
  destruct (default_settings !! "name") as [name_v |]; run; [| discriminate].
  unfold call_create_child_class_object, create_child_class_object. run.
  destruct method_v as [| | | | identifier | | |]; try discriminate.
  destruct (String.eqb_spec identifier "vis_sim_2d") as [-> | Hother].
  - intros Hrun. split; [reflexivity |]. exists name_v. split; [reflexivity |].
    destruct name_v; exact Hrun.
  - destruct name_v; discriminate.
Qed.

(** X13. Without [automatic_init], an answer that is none of the six words for
    yes makes [init_augment] build a [DoNotAugment] object from the
    thresholds and the default settings; one line has been read and the
    question is all that was printed. *)
Theorem init_augment_declined (eagermot_thresholds folder_v bias_v : pyvalue)
    (w : World) (savechoice : string) (rest : list string) :
  stdin w = savechoice :: rest ->
  savechoice ∉ augment_yes ->
  default_settings !! "folder" = Some folder_v ->
  default_settings !! "bias ratio" = Some bias_v ->
  init_augment false eagermot_thresholds w
  = (Return (mkInstance "DoNotAugment" eagermot_thresholds folder_v bias_v),
     mkWorld rest (stdout w ++ [augment_question +:+ nl]) (fs w) (heap w)).
Proof.
  intros Hin Hno Hfolder Hbias.
  unfold init_augment, input, print, write, with_stdin.
  cbn [stdin stdout fs heap]. rewrite Hin.
  rewrite bool_decide_eq_false_2 by exact Hno.
  now apply DoNotAugment_init_with_settings.
Qed.

End EntryPointFacts.

(** ** More runs on the sample environment *)

Lemma get_bias_ratio_input_returns_a_ratio_witness :
  exists bias w',
    @get_bias_ratio_input Sample.environment "vis" (Sample.world ["inf"; "nan"; "-1"; "0.5"])
    = (Return bias, w')
    /\ bias <> S754_nan
    /\ denotes_unit_value bias.
Proof.
  eexists _, _. split; [vm_compute; reflexivity |].
  destruct (@get_bias_ratio_input_returns_a_ratio Sample.environment "vis"
              (Sample.world ["inf"; "nan"; "-1"; "0.5"]) _ _ eq_refl)
    as (Hnan & _ & _ & Hvalue).
  split; [exact Hnan |]. apply Hvalue. reflexivity.
Defined.

Lemma AugmentationMethod_init_interactive_witness :
  @AugmentationMethod_init Sample.environment Sample.scoring_method "vis" false
    (PyDict 7%positive) (Sample.world ["Yes"; "1.5"; "2"; "1"; "later"])
  = (Return (mkInstance "vis" (PyDict 7%positive)
               (PyStr "/data/Embeddings/vis/") (PyFloat float_one)),
     mkWorld ["later"]
       (folder_banner (env := Sample.environment) "vis"
          ++ bias_banner "vis"
          :: map (bias_retry (env := Sample.environment)) ["1.5"; "2"])
       (fs (Sample.world [])) (heap (Sample.world []))).
Proof.
  apply (@AugmentationMethod_init_interactive Sample.environment Sample.scoring_method
           "vis" (PyDict 7%positive) (PyDict 7%positive)
           (Sample.world ["Yes"; "1.5"; "2"; "1"; "later"])
           (Sample.world ["Yes"; "1.5"; "2"; "1"; "later"])
           "Yes" "1" ["1.5"; "2"] ["later"] float_one).
  - reflexivity.
  - reflexivity.
  - apply (bool_decide_unpack _). vm_compute. exact I.
  - repeat constructor.
  - reflexivity.
  - reflexivity.
Defined.

Lemma AugmentationMethod_init_interactive_folder_witness :
  exists self w',
    @AugmentationMethod_init Sample.environment Sample.scoring_method "vis" false
      (PyDict 7%positive) (Sample.world ["n"; "/nowhere"; "/Embeddings/mine"; "0.5"])
    = (Return self, w')
    /\ exists below,
         (forall w2,
            get_folder self w2
            = (Return (PyStr (MOUNT_PATH (Environment := Sample.environment) +:+ below)), w2))
         /\ (MOUNT_PATH (Environment := Sample.environment) +:+ below
             = default_path (env := Sample.environment) "vis"
             \/ posixpath.path_exists (fs w')
                  (MOUNT_PATH (Environment := Sample.environment) +:+ below) = true).
Proof.
  eexists _, _. split; [vm_compute; reflexivity |].
  eapply (@AugmentationMethod_init_interactive_folder Sample.environment
            Sample.scoring_method "vis" (PyDict 7%positive)
            (Sample.world ["n"; "/nowhere"; "/Embeddings/mine"; "0.5"])).
  vm_compute. reflexivity.
Defined.

Lemma DoNotAugment_get_map_ratio_errors_witness :
  exists self w',
    @DoNotAugment_init Sample.environment (PyDict 7%positive) (Sample.world [])
    = (Return self, w')
    /\ get_map_ratio self 3%Z (Sample.world [])
       = (Raise (KeyError (PyInt 3)), Sample.world []).
Proof.
  eexists _, _. split; [vm_compute; reflexivity |].
  match goal with
  | |- get_map_ratio ?s _ _ = _ =>
      assert (Hinit : @DoNotAugment_init Sample.environment (PyDict 7%positive)
                        (Sample.world [])
                      = (Return s, Sample.world []))
        by (vm_compute; reflexivity)
  end.
  apply (proj1 (@DoNotAugment_get_map_ratio_errors Sample.environment _ _ _ _ Hinit)
           7%positive).
  - reflexivity.
  - vm_compute. reflexivity.
Defined.

Lemma DoNotAugment_save_twice_witness :
  exists w1,
    @DoNotAugment_save_augmentation_parameters Sample.environment
      (mkInstance "DoNotAugment" (PyDict 7%positive) PyNone PyNone) "/data/results/"
      (Sample.world [])
    = (Return PyNone, w1)
    /\ @DoNotAugment_save_augmentation_parameters Sample.environment
         (mkInstance "DoNotAugment" (PyDict 7%positive) PyNone PyNone) "/data/results/" w1
       = (Return PyNone, w1).
Proof.
  apply (@DoNotAugment_save_twice Sample.environment
           (mkInstance "DoNotAugment" (PyDict 7%positive) PyNone PyNone) "/data/results/"
           (Sample.world [])).
  - vm_compute. reflexivity.
  - vm_compute. reflexivity.
Defined.

Lemma create_child_class_object_returns_witness :
  "vis_sim_2d" = "vis_sim_2d"
  /\ @visual_similarity_2d_create_child_object Sample.environment "vis" true
       (PyDict 7%positive) (Sample.world [])
     = (Return (mkInstance "vis" (PyDict 7%positive)
                  (PyStr "/data/Embeddings/vis/") (PyFloat float_half)),
        Sample.world []).
Proof.
  apply (@create_child_class_object_returns Sample.environment "vis_sim_2d" "vis" true
           (PyDict 7%positive) (Sample.world []) (Sample.world [])).
  reflexivity.
Defined.

Lemma init_augment_automatic_returns_witness :
  exists self w',
    @init_augment Sample.environment sample_registry true (PyDict 7%positive)
      (Sample.world [])
    = (Return self, w')
    /\ default_settings (Environment := Sample.environment) !! "method"
       = Some (PyStr "vis_sim_2d").
Proof.
  eexists _, _. split; [vm_compute; reflexivity |].
  eapply (@init_augment_automatic_returns Sample.environment sample_registry
            (PyDict 7%positive) (Sample.world [])).
  vm_compute. reflexivity.
Defined.

Lemma init_augment_declined_witness :
  @init_augment Sample.environment sample_registry false (PyDict 7%positive)
    (Sample.world ["default"; "later"])
  = (Return (mkInstance "DoNotAugment" (PyDict 7%positive)
               (PyStr "/data/Embeddings/vis/") (PyFloat float_half)),
     mkWorld ["later"] [@augment_question +:+ nl]
       (fs (Sample.world [])) (heap (Sample.world []))).
Proof.
  apply (@init_augment_declined Sample.environment sample_registry (PyDict 7%positive)
           (PyStr "/data/Embeddings/vis/") (PyFloat float_half)
           (Sample.world ["default"; "later"]) "default" ["later"]).
  - reflexivity.
  - apply (bool_decide_unpack _). vm_compute. exact I.
  - vm_compute. reflexivity.
  - vm_compute. reflexivity.
Defined.

Example folder_prompt_end_of_input :
  fst (@get_source_folder_address Sample.environment "vis"
         (Sample.world ["no"; "/nowhere"; "/elsewhere"]))
  = Raise EOFError.
Proof. vm_compute. reflexivity. Qed.

Example chosen_method_runs :
  fst (@init_augment Sample.environment sample_registry false (PyDict 7%positive)
         (Sample.world ["y"]))
  = Return (mkInstance "Visual similarity 2D" (PyDict 7%positive)
              (PyStr "/data/Embeddings/vis/") (PyFloat float_half)).
Proof. vm_compute. reflexivity. Qed.

Lemma AugmentationMethod_init_raises_witness :
  @AugmentationMethod_init Sample.environment Sample.scoring_method "vis" false
    (PyDict 7%positive) (Sample.world ["n"; "/nowhere"])
  = (Raise EOFError,
     snd (@AugmentationMethod_init Sample.environment Sample.scoring_method "vis" false
            (PyDict 7%positive) (Sample.world ["n"; "/nowhere"])))
  /\ EOFError = EOFError.
Proof.
  split; [vm_compute; reflexivity |].
  destruct (@AugmentationMethod_init_raises Sample.environment Sample.scoring_method
              "vis" false (PyDict 7%positive) (Sample.world ["n"; "/nowhere"])
              (snd (@AugmentationMethod_init Sample.environment Sample.scoring_method
                      "vis" false (PyDict 7%positive) (Sample.world ["n"; "/nowhere"])))
              EOFError ltac:(vm_compute; reflexivity))
    as [Hsetup | (ratio & w1 & _ & He)].
  - discriminate Hsetup.
  - exact He.
Defined.
